(** * The NEURON mechanism registrar [modl_reg] of [mechanisms/single/mod_func.c]

    The C file declares nineteen external registration functions and one
    procedure, [modl_reg], which optionally prints a banner on [stderr] and
    then calls the nineteen functions one after the other.

    The procedure is embedded as a computation in a small monad that threads
    the state of the host process and logs, in program order, every write to
    [stderr] and every external call the procedure performs.  The external
    functions are not part of the file: they are a parameter of the model, an
    arbitrary transformer of the host state for each of them. *)

From Stdlib Require Import ZArith List String Ascii Bool Lia.
From ExtLib Require Import Structures.Monad.
Import ListNotations.
Import MonadNotation.

Local Open Scope string_scope.
Local Open Scope Z_scope.
Local Open Scope list_scope.
Local Open Scope monad_scope.

Module ModFunc.

(** ** External registration functions (lines 6 to 24) *)

(** One constructor per [extern void _X_reg();] declaration. *)
Inductive reg_fn : Set :=
  | _Im_reg
  | _bk_reg
  | _cadyn_reg
  | _cal12_reg
  | _cal13_reg
  | _caldyn_reg
  | _can_reg
  | _car_reg
  | _cav32_reg
  | _cav33_reg
  | _gaba_reg
  | _glutamate_reg
  | _kaf_reg
  | _kas_reg
  | _kdr_reg
  | _kir_reg
  | _naf_reg
  | _sk_reg
  | _vecevent_reg.

Definition reg_fn_eq_dec (f g : reg_fn) : {f = g} + {f <> g}.
Proof. decide equality. Defined.

(** The declarations, in the order in which the file lists them. *)
Definition declared_regs : list reg_fn :=
  [ _Im_reg; _bk_reg; _cadyn_reg; _cal12_reg; _cal13_reg; _caldyn_reg;
    _can_reg; _car_reg; _cav32_reg; _cav33_reg; _gaba_reg; _glutamate_reg;
    _kaf_reg; _kas_reg; _kdr_reg; _kir_reg; _naf_reg; _sk_reg;
    _vecevent_reg ].

(** The C identifier of each declaration. *)
Definition c_ident (f : reg_fn) : string :=
  match f with
  | _Im_reg => "_Im_reg"
  | _bk_reg => "_bk_reg"
  | _cadyn_reg => "_cadyn_reg"
  | _cal12_reg => "_cal12_reg"
  | _cal13_reg => "_cal13_reg"
  | _caldyn_reg => "_caldyn_reg"
  | _can_reg => "_can_reg"
  | _car_reg => "_car_reg"
  | _cav32_reg => "_cav32_reg"
  | _cav33_reg => "_cav33_reg"
  | _gaba_reg => "_gaba_reg"
  | _glutamate_reg => "_glutamate_reg"
  | _kaf_reg => "_kaf_reg"
  | _kas_reg => "_kas_reg"
  | _kdr_reg => "_kdr_reg"
  | _kir_reg => "_kir_reg"
  | _naf_reg => "_naf_reg"
  | _sk_reg => "_sk_reg"
  | _vecevent_reg => "_vecevent_reg"
  end.

(** ** C scalars

    Both globals are C [int]s.  The procedure only tests them, so they are
    integers of [Z]; no arithmetic that could wrap around is performed. *)

(** [!x] *)
Definition c_lnot (x : Z) : Z := if x =? 0 then 1 else 0.

(** [a < b] *)
Definition c_lt (a b : Z) : Z := if a <? b then 1 else 0.

(** The truth value an [if (...)] gives to a scalar. *)
Definition c_truth (x : Z) : bool := negb (x =? 0).

(** The newline character written as [\n] in the C literals. *)
Definition nl : string := String "010" EmptyString.

(** ** Host state, events and the monad *)

Section Host.

(** The rest of the memory of the host process. *)
Variable Ext : Type.

Record Host : Type := mkHost {
  nrn_nobanner_ : Z;
  nrnmpi_myid : Z;
  stderr : string;
  mem : Ext
}.

(** What the procedure does, as seen from outside. *)
Inductive event : Set :=
  | EvStderr (s : string)
  | EvCall (f : reg_fn).

(** A computation returns a value, a new host state and the events it
    performed, oldest first. *)
Definition Proc (A : Type) : Type := Host -> A * Host * list event.

Definition Proc_ret {A : Type} (a : A) : Proc A :=
  fun h => (a, h, []).

Definition Proc_bind {A B : Type} (m : Proc A) (k : A -> Proc B) : Proc B :=
  fun h =>
    let '(a, h1, t1) := m h in
    let '(b, h2, t2) := k a h1 in
    (b, h2, t1 ++ t2).

#[local] Instance Monad_Proc : Monad Proc :=
  {| ret := @Proc_ret; bind := @Proc_bind |}.

Definition retval {A : Type} (r : A * Host * list event) : A := fst (fst r).
Definition host_of {A : Type} (r : A * Host * list event) : Host := snd (fst r).
Definition trace {A : Type} (r : A * Host * list event) : list event := snd r.

(** The behaviour of the external functions: each one transforms the host
    state in a way this file knows nothing about. *)
Variable extern : reg_fn -> Host -> Host.

(** Reading the two imported globals. *)
Definition load_nrn_nobanner_ : Proc Z :=
  fun h => (nrn_nobanner_ h, h, []).

Definition load_nrnmpi_myid : Proc Z :=
  fun h => (nrnmpi_myid h, h, []).

(** [fprintf(stderr, fmt)] with a format that holds no conversion: the
    format is written as it is. *)
Definition fprintf_stderr (fmt : string) : Proc unit :=
  fun h =>
    (tt,
     mkHost (nrn_nobanner_ h) (nrnmpi_myid h) (stderr h ++ fmt)%string (mem h),
     [EvStderr fmt]).

(** A call [f();] of an external registration function. *)
Definition call (f : reg_fn) : Proc unit :=
  fun h => (tt, extern f h, [EvCall f]).

(** ** The procedure (lines 26 to 71) *)

Definition modl_reg : Proc unit :=
  nb <- load_nrn_nobanner_ ;;
  (if c_truth (c_lnot nb) then
     id <- load_nrnmpi_myid ;;
     if c_truth (c_lt id 1) then
       fprintf_stderr ("Additional mechanisms from files" ++ nl) ;;
       fprintf_stderr " Im.mod" ;;
       fprintf_stderr " bk.mod" ;;
       fprintf_stderr " cadyn.mod" ;;
       fprintf_stderr " cal12.mod" ;;
       fprintf_stderr " cal13.mod" ;;
       fprintf_stderr " caldyn.mod" ;;
       fprintf_stderr " can.mod" ;;
       fprintf_stderr " car.mod" ;;
       fprintf_stderr " cav32.mod" ;;
       fprintf_stderr " cav33.mod" ;;
       fprintf_stderr " gaba.mod" ;;
       fprintf_stderr " glutamate.mod" ;;
       fprintf_stderr " kaf.mod" ;;
       fprintf_stderr " kas.mod" ;;
       fprintf_stderr " kdr.mod" ;;
       fprintf_stderr " kir.mod" ;;
       fprintf_stderr " naf.mod" ;;
       fprintf_stderr " sk.mod" ;;
       fprintf_stderr " vecevent.mod" ;;
       fprintf_stderr nl
     else ret tt
   else ret tt) ;;
  call _Im_reg ;;
  call _bk_reg ;;
  call _cadyn_reg ;;
  call _cal12_reg ;;
  call _cal13_reg ;;
  call _caldyn_reg ;;
  call _can_reg ;;
  call _car_reg ;;
  call _cav32_reg ;;
  call _cav33_reg ;;
  call _gaba_reg ;;
  call _glutamate_reg ;;
  call _kaf_reg ;;
  call _kas_reg ;;
  call _kdr_reg ;;
  call _kir_reg ;;
  call _naf_reg ;;
  call _sk_reg ;;
  call _vecevent_reg.

(** [n] invocations of the entry point, one after the other. *)
Fixpoint modl_reg_times (n : nat) : Proc unit :=
  match n with
  | O => ret tt
  | S n' => modl_reg ;; modl_reg_times n'
  end.

(** ** Observations on a run *)

(** The registration calls of a trace, in order. *)
Fixpoint calls_of (t : list event) : list reg_fn :=
  match t with
  | [] => []
  | EvCall f :: t' => f :: calls_of t'
  | EvStderr _ :: t' => calls_of t'
  end.

(** The strings written to [stderr], one per [fprintf], in order. *)
Fixpoint writes_of (t : list event) : list string :=
  match t with
  | [] => []
  | EvStderr s :: t' => s :: writes_of t'
  | EvCall _ :: t' => writes_of t'
  end.

(** The text that reaches [stderr]: the writes put end to end. *)
Definition text_of (ws : list string) : string :=
  fold_right String.append EmptyString ws.

Definition diag_output (t : list event) : string := text_of (writes_of t).

(** No write to [stderr] happens once a registration call has been made. *)
Fixpoint writes_first (t : list event) : bool :=
  match t with
  | [] => true
  | EvStderr _ :: t' => writes_first t'
  | EvCall _ :: t' => match writes_of t' with [] => true | _ :: _ => false end
  end.

(** The banner condition of line 28, as one test on the host state. *)
Definition banner_gate (h : Host) : bool :=
  (nrn_nobanner_ h =? 0) && (nrnmpi_myid h <? 1).

(** The host state once the banner text [b] has reached [stderr]. *)
Definition printed (b : string) (h : Host) : Host :=
  mkHost (nrn_nobanner_ h) (nrnmpi_myid h) (stderr h ++ b)%string (mem h).

(** The external functions of [fs] run one after the other. *)
Definition run_regs (fs : list reg_fn) (h : Host) : Host :=
  fold_left (fun h' f => extern f h') fs h.

End Host.

Arguments nrn_nobanner_ {Ext} _.
Arguments nrnmpi_myid {Ext} _.
Arguments stderr {Ext} _.
Arguments mem {Ext} _.
Arguments mkHost {Ext} _ _ _ _.
Arguments retval {Ext A} _.
Arguments host_of {Ext A} _.
Arguments trace {Ext A} _.
Arguments modl_reg {Ext} _ _.
Arguments modl_reg_times {Ext} _ _ _.
Arguments banner_gate {Ext} _.
Arguments printed {Ext} _ _.
Arguments run_regs {Ext} _ _ _.

(** ** The banner, as the claims describe it *)

(** The mechanism file a registration function comes from: the translator
    names the function of [X.mod] [_X_reg]. *)
Definition mod_file_of (f : reg_fn) : string :=
  let s := c_ident f in
  (substring 1 (String.length s - 5) s ++ ".mod")%string.

(** The nineteen mechanism file names. *)
Definition mod_files : list string :=
  [ "Im.mod"; "bk.mod"; "cadyn.mod"; "cal12.mod"; "cal13.mod"; "caldyn.mod";
    "can.mod"; "car.mod"; "cav32.mod"; "cav33.mod"; "gaba.mod";
    "glutamate.mod"; "kaf.mod"; "kas.mod"; "kdr.mod"; "kir.mod"; "naf.mod";
    "sk.mod"; "vecevent.mod" ].

Definition header_line : string := "Additional mechanisms from files" ++ nl.

(** Every file name behind one space, then one newline. *)
Definition mod_files_line : string :=
  (text_of (map (String.append " ") mod_files) ++ nl)%string.

(** The writes that make up the banner. *)
Definition banner_writes : list string :=
  header_line :: map (String.append " ") mod_files ++ [nl].

Definition banner_text : string := (header_line ++ mod_files_line)%string.

(** The number of newline characters of a string. *)
Fixpoint count_nl (s : string) : nat :=
  match s with
  | EmptyString => O
  | String c s' => (if Ascii.eqb c "010" then 1 else 0)%nat + count_nl s'
  end.

(** Whether a [printf] format holds a conversion. *)
Fixpoint has_percent (s : string) : bool :=
  match s with
  | EmptyString => false
  | String c s' => Ascii.eqb c "%" || has_percent s'
  end.

(** A host used to run the model on concrete inputs: its memory counts the
    mechanisms registered so far, and every registration function also
    reports on [stderr]. *)
Definition counting_extern (f : reg_fn) (h : Host nat) : Host nat :=
  mkHost (nrn_nobanner_ h) (nrnmpi_myid h)
         (stderr h ++ c_ident f ++ nl)%string (S (mem h)).

(** A host whose registration functions overwrite the rank. *)
Definition meddling_extern (f : reg_fn) (h : Host nat) : Host nat :=
  mkHost (nrn_nobanner_ h) 7 (stderr h) (S (mem h)).

Definition host0 (nb id : Z) : Host nat := mkHost nb id EmptyString O.

(** A host whose registration functions only count themselves: they write
    nothing and leave the globals alone. *)
Definition quiet_extern (f : reg_fn) (h : Host nat) : Host nat :=
  mkHost (nrn_nobanner_ h) (nrnmpi_myid h) (stderr h) (S (mem h)).

(** ** Basic facts *)

Lemma append_assoc (a b c : string) :
  ((a ++ b) ++ c = a ++ (b ++ c))%string.
Proof.
  induction a as [| x a IH]; simpl; [reflexivity | now rewrite IH].
Qed.

Lemma append_empty_r (a : string) : (a ++ EmptyString)%string = a.
Proof.
  induction a as [| x a IH]; simpl; [reflexivity | now rewrite IH].
Qed.

Lemma calls_of_app (t u : list event) :
  calls_of (t ++ u) = calls_of t ++ calls_of u.
Proof.
  induction t as [| [s | f] t IH]; simpl; [reflexivity | assumption |].
  now rewrite IH.
Qed.

Lemma writes_of_app (t u : list event) :
  writes_of (t ++ u) = writes_of t ++ writes_of u.
Proof.
  induction t as [| [s | f] t IH]; simpl; [reflexivity | | assumption].
  now rewrite IH.
Qed.

Lemma calls_of_calls (fs : list reg_fn) : calls_of (map EvCall fs) = fs.
Proof. induction fs as [| f fs IH]; simpl; congruence. Qed.

Lemma calls_of_writes (ws : list string) : calls_of (map EvStderr ws) = [].
Proof. induction ws as [| w ws IH]; simpl; congruence. Qed.

Lemma writes_of_calls (fs : list reg_fn) : writes_of (map EvCall fs) = [].
Proof. induction fs as [| f fs IH]; simpl; congruence. Qed.

Lemma writes_of_writes (ws : list string) : writes_of (map EvStderr ws) = ws.
Proof. induction ws as [| w ws IH]; simpl; congruence. Qed.

(** The gate of line 28 is the conjunction of the two tests. *)
Lemma banner_gate_true {Ext} (h : Host Ext) :
  banner_gate h = true <-> nrn_nobanner_ h = 0 /\ nrnmpi_myid h < 1.
Proof.
  unfold banner_gate. rewrite andb_true_iff, Z.eqb_eq, Z.ltb_lt. tauto.
Qed.

Lemma banner_gate_false {Ext} (h : Host Ext) :
  banner_gate h = false <-> ~ (nrn_nobanner_ h = 0 /\ nrnmpi_myid h < 1).
Proof.
  rewrite <- banner_gate_true. destruct (banner_gate h); split; congruence.
Qed.

(** The nested tests of line 28 amount to [banner_gate]. *)
Lemma nested_tests {Ext} (h : Host Ext) :
  (if c_truth (c_lnot (nrn_nobanner_ h))
   then c_truth (c_lt (nrnmpi_myid h) 1) else false) = banner_gate h.
Proof.
  unfold banner_gate, c_truth, c_lnot, c_lt.
  destruct (nrn_nobanner_ h =? 0), (nrnmpi_myid h <? 1); reflexivity.
Qed.

(** What one invocation does: the banner when the gate is open, then the
    nineteen calls; the host state is the one the external functions build
    from the state the banner leaves. *)
Lemma modl_reg_run {Ext} (extern : reg_fn -> Host Ext -> Host Ext) (h : Host Ext) :
  modl_reg extern h =
    (tt,
     run_regs extern declared_regs
       (if banner_gate h then printed banner_text h else h),
     (if banner_gate h then map EvStderr banner_writes else [])
       ++ map EvCall declared_regs).
Proof.
  rewrite <- nested_tests.
  unfold modl_reg. cbn [bind ret Monad_Proc].
  unfold Proc_bind at 1 2. unfold load_nrn_nobanner_.
  destruct (c_truth (c_lnot (nrn_nobanner_ h))); [| reflexivity].
  unfold Proc_bind at 1. unfold load_nrnmpi_myid.
  destruct (c_truth (c_lt (nrnmpi_myid h) 1)); [| reflexivity].
  cbv [Proc_bind fprintf_stderr call nrn_nobanner_ nrnmpi_myid stderr mem].
  unfold printed. cbn [app map banner_writes declared_regs run_regs fold_left].
  rewrite !append_assoc. reflexivity.
Qed.

Lemma modl_reg_trace {Ext} (extern : reg_fn -> Host Ext -> Host Ext) (h : Host Ext) :
  trace (modl_reg extern h) =
    (if banner_gate h then map EvStderr banner_writes else [])
      ++ map EvCall declared_regs.
Proof. now rewrite modl_reg_run. Qed.

Lemma modl_reg_host {Ext} (extern : reg_fn -> Host Ext -> Host Ext) (h : Host Ext) :
  host_of (modl_reg extern h) =
    run_regs extern declared_regs
      (if banner_gate h then printed banner_text h else h).
Proof. now rewrite modl_reg_run. Qed.

Lemma modl_reg_calls {Ext} (extern : reg_fn -> Host Ext -> Host Ext) (h : Host Ext) :
  calls_of (trace (modl_reg extern h)) = declared_regs.
Proof.
  rewrite modl_reg_trace, calls_of_app, calls_of_calls.
  destruct (banner_gate h); [now rewrite calls_of_writes | reflexivity].
Qed.

Lemma modl_reg_writes {Ext} (extern : reg_fn -> Host Ext -> Host Ext) (h : Host Ext) :
  writes_of (trace (modl_reg extern h)) =
    if banner_gate h then banner_writes else [].
Proof.
  rewrite modl_reg_trace, writes_of_app, writes_of_calls, app_nil_r.
  destruct (banner_gate h); [apply writes_of_writes | reflexivity].
Qed.

(** Every declared function occurs once in the list of declarations. *)
Lemma declared_regs_once (f : reg_fn) :
  count_occ reg_fn_eq_dec declared_regs f = 1%nat.
Proof. destruct f; reflexivity. Qed.

(** The file names of the banner are those of the declared functions. *)
Lemma mod_files_of_regs : mod_files = map mod_file_of declared_regs.
Proof. reflexivity. Qed.

(** No format of the banner holds a conversion, so [fprintf] writes each of
    them as it is. *)
Lemma banner_formats_plain :
  forallb (fun fmt => negb (has_percent fmt)) banner_writes = true.
Proof. reflexivity. Qed.

Lemma text_of_banner_writes : text_of banner_writes = banner_text.
Proof. reflexivity. Qed.

(** A trace made of writes followed by calls, cut at one of its calls: all
    the writes are before the cut. *)
Lemma writes_then_calls_split (ws : list string) (fs : list reg_fn) :
  forall pre f post,
    map EvStderr ws ++ map EvCall fs = pre ++ EvCall f :: post ->
    writes_of pre = ws /\ writes_of post = [].
Proof.
  induction ws as [| w ws IH]; intros pre f post E.
  - apply (f_equal writes_of) in E.
    cbn [map app] in E. rewrite writes_of_calls, writes_of_app in E.
    cbn [writes_of] in E. symmetry in E. apply app_eq_nil in E. exact E.
  - destruct pre as [| e pre]; simpl in E; [discriminate |].
    injection E as <- E. destruct (IH _ _ _ E) as [Hpre Hpost].
    simpl. now rewrite Hpre.
Qed.

(** The events of repeated invocations. *)
Lemma modl_reg_times_succ {Ext} (extern : reg_fn -> Host Ext -> Host Ext)
    (n : nat) (h : Host Ext) :
  trace (modl_reg_times extern (S n) h) =
    trace (modl_reg extern h)
      ++ trace (modl_reg_times extern n (host_of (modl_reg extern h))).
Proof.
  cbn [modl_reg_times bind Monad_Proc]. unfold Proc_bind.
  destruct (modl_reg extern h) as [[[] h1] t1]. cbn [host_of trace fst snd].
  destruct (modl_reg_times extern n h1) as [[[] h2] t2]. reflexivity.
Qed.

Lemma modl_reg_times_calls {Ext} (extern : reg_fn -> Host Ext -> Host Ext)
    (n : nat) :
  forall h : Host Ext,
    calls_of (trace (modl_reg_times extern n h)) =
      List.concat (repeat declared_regs n).
Proof.
  induction n as [| n IH]; intros h; [reflexivity |].
  rewrite modl_reg_times_succ, calls_of_app, modl_reg_calls, IH.
  reflexivity.
Qed.

Lemma count_occ_concat_repeat (fs : list reg_fn) (f : reg_fn) (n : nat) :
  count_occ reg_fn_eq_dec (List.concat (repeat fs n)) f =
    (n * count_occ reg_fn_eq_dec fs f)%nat.
Proof.
  induction n as [| n IH]; [reflexivity |].
  cbn [repeat List.concat]. rewrite count_occ_app, IH. reflexivity.
Qed.

(** External functions that leave the two globals alone, run in sequence,
    leave them alone. *)
Lemma run_regs_frame {Ext} (extern : reg_fn -> Host Ext -> Host Ext)
    (Hframe : forall f h,
        nrn_nobanner_ (extern f h) = nrn_nobanner_ h /\
        nrnmpi_myid (extern f h) = nrnmpi_myid h)
    (fs : list reg_fn) :
  forall h,
    nrn_nobanner_ (run_regs extern fs h) = nrn_nobanner_ h /\
    nrnmpi_myid (run_regs extern fs h) = nrnmpi_myid h.
Proof.
  unfold run_regs.
  induction fs as [| f fs IH]; intros h; [split; reflexivity |].
  cbn [fold_left]. destruct (IH (extern f h)) as [-> ->]. apply Hframe.
Qed.

(** The procedure cannot protect the globals from the functions it calls:
    when they overwrite the rank, the rank is changed on return. *)
Example meddling_changes_rank :
  nrnmpi_myid (host_of (modl_reg meddling_extern (host0 0 0))) = 7.
Proof. reflexivity. Qed.

(** ** The claims *)

(** C1.  Whatever the banner flag, the rank and the rest of the host state,
    and whatever the external functions do, one invocation of [modl_reg]
    calls the nineteen registration functions in the order of their
    declarations, [_Im_reg] first and [_vecevent_reg] last, each of them
    exactly once. *)
Theorem modl_reg_registers_each_once :
  forall (Ext : Type) (extern : reg_fn -> Host Ext -> Host Ext) (h : Host Ext),
    calls_of (trace (modl_reg extern h)) = declared_regs /\
    List.length (calls_of (trace (modl_reg extern h))) = 19%nat /\
    forall f : reg_fn,
      count_occ reg_fn_eq_dec (calls_of (trace (modl_reg extern h))) f = 1%nat.
Proof.
  intros Ext extern h. rewrite modl_reg_calls.
  split; [reflexivity |]. split; [reflexivity |]. apply declared_regs_once.
Qed.

(** C2.  The writes of [modl_reg] to [stderr] are those of the banner if and
    only if [nrn_nobanner_] is zero and [nrnmpi_myid] is below 1; in every
    other case, and only then, [modl_reg] performs no write at all. *)
Theorem banner_printed_iff_gate :
  forall (Ext : Type) (extern : reg_fn -> Host Ext -> Host Ext) (h : Host Ext),
    (writes_of (trace (modl_reg extern h)) = banner_writes <->
       nrn_nobanner_ h = 0 /\ nrnmpi_myid h < 1) /\
    (writes_of (trace (modl_reg extern h)) = [] <->
       ~ (nrn_nobanner_ h = 0 /\ nrnmpi_myid h < 1)).
Proof.
  intros Ext extern h. rewrite modl_reg_writes.
  rewrite <- banner_gate_false, <- banner_gate_true.
  destruct (banner_gate h); repeat split; intros; congruence || discriminate.
Qed.

(** C3, as the specification words it, fails: with the flag clear on rank 0
    the text written is not the line of file names alone, and it holds two
    newlines, not one. *)
Lemma banner_is_not_one_line :
  banner_gate (host0 0 0) = true /\
  diag_output (trace (modl_reg counting_extern (host0 0 0))) <> mod_files_line /\
  count_nl (diag_output (trace (modl_reg counting_extern (host0 0 0)))) <> 1%nat.
Proof.
  split; [reflexivity |]. split; intros E; vm_compute in E; discriminate E.
Qed.

(** C3, amended.  Whenever the banner is printed, its text is the header
    line followed by one line that holds the nineteen mechanism file names,
    those of the declared functions in the order of the declarations, each
    behind a single space, and that one newline closes; the text does not
    depend on the host state. *)
Theorem banner_text_header_then_files :
  forall (Ext : Type) (extern : reg_fn -> Host Ext -> Host Ext) (h : Host Ext),
    nrn_nobanner_ h = 0 -> nrnmpi_myid h < 1 ->
    diag_output (trace (modl_reg extern h)) =
      (header_line ++ text_of (map (String.append " ") mod_files) ++ nl)%string /\
    mod_files = map mod_file_of declared_regs /\
    List.length mod_files = 19%nat /\
    count_nl (text_of (map (String.append " ") mod_files)) = 0%nat.
Proof.
  intros Ext extern h Hnb Hid.
  assert (G : banner_gate h = true) by (apply banner_gate_true; now split).
  unfold diag_output. rewrite modl_reg_writes, G.
  repeat split; reflexivity.
Qed.

Lemma banner_text_header_then_files_witness :
  nrn_nobanner_ (host0 0 0) = 0 /\
  nrnmpi_myid (host0 0 0) < 1 /\
  diag_output (trace (modl_reg counting_extern (host0 0 0))) =
    (header_line ++ text_of (map (String.append " ") mod_files) ++ nl)%string.
Proof.
  split; [reflexivity |]. split; [reflexivity |].
  apply (banner_text_header_then_files nat counting_extern (host0 0 0));
    reflexivity.
Defined.

(** C4.  When the banner condition holds, the run is the banner writes
    followed by the calls: at every registration call the whole banner has
    been written, and nothing is written afterwards. *)
Theorem banner_precedes_registration :
  forall (Ext : Type) (extern : reg_fn -> Host Ext -> Host Ext) (h : Host Ext),
    nrn_nobanner_ h = 0 -> nrnmpi_myid h < 1 ->
    forall (pre : list event) (f : reg_fn) (post : list event),
      trace (modl_reg extern h) = pre ++ EvCall f :: post ->
      calls_of pre ++ f :: calls_of post = declared_regs /\
      writes_of pre = banner_writes /\
      writes_of post = [].
Proof.
  intros Ext extern h Hnb Hid pre f post E.
  assert (G : banner_gate h = true) by (apply banner_gate_true; now split).
  split.
  - rewrite <- (modl_reg_calls extern h), E, calls_of_app. reflexivity.
  - rewrite modl_reg_trace, G in E.
    exact (writes_then_calls_split _ _ _ _ _ E).
Qed.

Lemma banner_precedes_registration_witness :
  nrn_nobanner_ (host0 0 (-3)) = 0 /\
  nrnmpi_myid (host0 0 (-3)) < 1 /\
  trace (modl_reg counting_extern (host0 0 (-3))) =
    map EvStderr banner_writes ++ EvCall _Im_reg :: map EvCall (tl declared_regs) /\
  writes_of (map EvStderr banner_writes) = banner_writes /\
  writes_of (map EvCall (tl declared_regs)) = [].
Proof.
  split; [reflexivity |]. split; [reflexivity |]. split; [reflexivity |].
  apply (banner_precedes_registration nat counting_extern (host0 0 (-3))
           eq_refl eq_refl
           (map EvStderr banner_writes) _Im_reg (map EvCall (tl declared_regs))
           eq_refl).
Defined.

(** C5.  [n] invocations of the entry point call every registration function
    exactly [n] times: each invocation runs the whole sequence again. *)
Theorem modl_reg_not_idempotent :
  forall (Ext : Type) (extern : reg_fn -> Host Ext -> Host Ext)
         (n : nat) (h : Host Ext),
    calls_of (trace (modl_reg_times extern n h)) =
      List.concat (repeat declared_regs n) /\
    forall f : reg_fn,
      count_occ reg_fn_eq_dec
        (calls_of (trace (modl_reg_times extern n h))) f = n.
Proof.
  intros Ext extern n h. rewrite modl_reg_times_calls.
  split; [reflexivity |]. intros f.
  rewrite count_occ_concat_repeat, declared_regs_once. apply Nat.mul_1_r.
Qed.

(** C6, for every invocation whatever the external functions do, fails:
    the calls are part of the invocation, and with registration functions
    that overwrite the rank, the rank read 0 on entry is 7 on return. *)
Lemma globals_changed_by_meddling_callee :
  nrnmpi_myid (host0 0 0) = 0 /\
  nrnmpi_myid (host_of (modl_reg meddling_extern (host0 0 0))) <>
    nrnmpi_myid (host0 0 0).
Proof.
  split; [reflexivity |]. intros E. vm_compute in E. discriminate E.
Qed.

(** C6, amended.  [modl_reg] itself only reads the two globals: provided
    the external registration functions leave [nrn_nobanner_] and
    [nrnmpi_myid] as they find them, both have on return the value they had
    on entry, for every invocation and every initial value. *)
Theorem modl_reg_preserves_globals :
  forall (Ext : Type) (extern : reg_fn -> Host Ext -> Host Ext),
    (forall f h,
        nrn_nobanner_ (extern f h) = nrn_nobanner_ h /\
        nrnmpi_myid (extern f h) = nrnmpi_myid h) ->
    forall h : Host Ext,
      nrn_nobanner_ (host_of (modl_reg extern h)) = nrn_nobanner_ h /\
      nrnmpi_myid (host_of (modl_reg extern h)) = nrnmpi_myid h.
Proof.
  intros Ext extern Hframe h. rewrite modl_reg_host.
  destruct (run_regs_frame extern Hframe declared_regs
              (if banner_gate h then printed banner_text h else h)) as [-> ->].
  destruct (banner_gate h); split; reflexivity.
Qed.

Lemma modl_reg_preserves_globals_witness :
  (forall f h,
      nrn_nobanner_ (counting_extern f h) = nrn_nobanner_ h /\
      nrnmpi_myid (counting_extern f h) = nrnmpi_myid h) /\
  nrn_nobanner_ (host_of (modl_reg counting_extern (host0 0 0))) = 0 /\
  nrnmpi_myid (host_of (modl_reg counting_extern (host0 0 0))) = 0.
Proof.
  split; [intros f h; split; reflexivity |].
  apply (modl_reg_preserves_globals nat counting_extern
           (fun f h => conj eq_refl eq_refl) (host0 0 0)).
Defined.

(** C7.  [modl_reg] has no error behaviour: it returns nothing, and what it
    writes and calls is the same whatever the external functions do to the
    host, so no outcome of a registration call is ever looked at. *)
Theorem modl_reg_ignores_outcomes :
  forall (Ext : Type) (extern extern' : reg_fn -> Host Ext -> Host Ext)
         (h : Host Ext),
    retval (modl_reg extern h) = tt /\
    trace (modl_reg extern h) = trace (modl_reg extern' h).
Proof.
  intros Ext extern extern' h. rewrite !modl_reg_trace.
  split; [now rewrite modl_reg_run | reflexivity].
Qed.

(** C8.  Whenever the banner is printed, the first write is the header line
    [Additional mechanisms from files] with its newline; the file names come
    after it, and the text as a whole holds two newlines: it is two lines. *)
Theorem banner_starts_with_header :
  forall (Ext : Type) (extern : reg_fn -> Host Ext -> Host Ext) (h : Host Ext),
    nrn_nobanner_ h = 0 -> nrnmpi_myid h < 1 ->
    writes_of (trace (modl_reg extern h)) =
      ("Additional mechanisms from files" ++ nl)%string
        :: map (String.append " ") mod_files ++ [nl] /\
    count_nl (diag_output (trace (modl_reg extern h))) = 2%nat.
Proof.
  intros Ext extern h Hnb Hid.
  assert (G : banner_gate h = true) by (apply banner_gate_true; now split).
  unfold diag_output. rewrite modl_reg_writes, G. split; reflexivity.
Qed.

Lemma banner_starts_with_header_witness :
  nrn_nobanner_ (host0 0 0) = 0 /\
  nrnmpi_myid (host0 0 0) < 1 /\
  count_nl (diag_output (trace (modl_reg counting_extern (host0 0 0)))) = 2%nat.
Proof.
  split; [reflexivity |]. split; [reflexivity |].
  apply (banner_starts_with_header nat counting_extern (host0 0 0));
    reflexivity.
Defined.

(** C9.  Two invocations that read the same [nrn_nobanner_] and the same
    [nrnmpi_myid] write the same text and make the same calls, whatever
    else differs between the two host states. *)
Theorem modl_reg_deterministic :
  forall (Ext : Type) (extern extern' : reg_fn -> Host Ext -> Host Ext)
         (h h' : Host Ext),
    nrn_nobanner_ h = nrn_nobanner_ h' ->
    nrnmpi_myid h = nrnmpi_myid h' ->
    diag_output (trace (modl_reg extern h)) =
      diag_output (trace (modl_reg extern' h')) /\
    calls_of (trace (modl_reg extern h)) =
      calls_of (trace (modl_reg extern' h')) /\
    trace (modl_reg extern h) = trace (modl_reg extern' h').
Proof.
  intros Ext extern extern' h h' Hnb Hid.
  assert (E : trace (modl_reg extern h) = trace (modl_reg extern' h')).
  { rewrite !modl_reg_trace. unfold banner_gate. now rewrite Hnb, Hid. }
  rewrite E. repeat split; reflexivity.
Qed.

Lemma modl_reg_deterministic_witness :
  nrn_nobanner_ (host0 0 0) = nrn_nobanner_ (mkHost 0 0 "earlier output" 5%nat) /\
  nrnmpi_myid (host0 0 0) = nrnmpi_myid (mkHost 0 0 "earlier output" 5%nat) /\
  trace (modl_reg counting_extern (host0 0 0)) =
    trace (modl_reg meddling_extern (mkHost 0 0 "earlier output" 5%nat)).
Proof.
  split; [reflexivity |]. split; [reflexivity |].
  apply (modl_reg_deterministic nat counting_extern meddling_extern
           (host0 0 0) (mkHost 0 0 "earlier output" 5%nat));
    reflexivity.
Defined.

(** C10.  The gate tests [nrnmpi_myid < 1]: with [nrn_nobanner_] zero, a
    negative rank prints the banner, and the run is the one of rank 0. *)
Theorem negative_rank_prints_banner :
  forall (Ext : Type) (extern : reg_fn -> Host Ext -> Host Ext) (h : Host Ext),
    nrn_nobanner_ h = 0 -> nrnmpi_myid h < 0 ->
    writes_of (trace (modl_reg extern h)) = banner_writes /\
    trace (modl_reg extern h) =
      trace (modl_reg extern (mkHost (nrn_nobanner_ h) 0 (stderr h) (mem h))).
Proof.
  intros Ext extern h Hnb Hid.
  assert (G : banner_gate h = true) by (apply banner_gate_true; lia).
  rewrite modl_reg_writes, !modl_reg_trace, G.
  split; [reflexivity |].
  unfold banner_gate at 1. cbn [nrn_nobanner_ nrnmpi_myid].
  now rewrite Hnb.
Qed.

Lemma negative_rank_prints_banner_witness :
  nrn_nobanner_ (host0 0 (-1)) = 0 /\
  nrnmpi_myid (host0 0 (-1)) < 0 /\
  writes_of (trace (modl_reg counting_extern (host0 0 (-1)))) = banner_writes.
Proof.
  split; [reflexivity |]. split; [reflexivity |].
  apply (negative_rank_prints_banner nat counting_extern (host0 0 (-1)));
    reflexivity.
Defined.

(** ** Further properties of [modl_reg] *)

(** The gate reads the same after an invocation whose external functions
    leave the two globals alone. *)
Lemma modl_reg_gate_stable {Ext} (extern : reg_fn -> Host Ext -> Host Ext)
    (Hframe : forall f h,
        nrn_nobanner_ (extern f h) = nrn_nobanner_ h /\
        nrnmpi_myid (extern f h) = nrnmpi_myid h)
    (h : Host Ext) :
  banner_gate (host_of (modl_reg extern h)) = banner_gate h.
Proof.
  rewrite modl_reg_host. unfold banner_gate at 1.
  destruct (run_regs_frame extern Hframe declared_regs
              (if banner_gate h then printed banner_text h else h)) as [-> ->].
  destruct (banner_gate h) eqn:G; exact G.
Qed.

Lemma run_regs_invariant {Ext} (extern : reg_fn -> Host Ext -> Host Ext)
    (P : Host Ext -> Prop)
    (Hext : forall f h, P h -> P (extern f h)) (fs : list reg_fn) :
  forall h, P h -> P (run_regs extern fs h).
Proof.
  unfold run_regs.
  induction fs as [| f fs IH]; intros h Hh; [exact Hh |].
  cbn [fold_left]. apply IH, Hext, Hh.
Qed.

Lemma concat_repeat_nil {A : Type} (n : nat) :
  List.concat (repeat (@nil A) n) = [].
Proof. induction n as [| n IH]; [reflexivity | exact IH]. Qed.

(** The state in which [modl_reg] returns: the nineteen external functions
    applied, in the order of their declarations and each to the state the
    one before it left, to the entry state, whose [stderr] has first
    received the banner text when the gate is open.  The procedure itself
    changes nothing but [stderr]. *)
Theorem modl_reg_final_state :
  forall (Ext : Type) (extern : reg_fn -> Host Ext -> Host Ext) (h : Host Ext),
    host_of (modl_reg extern h) =
      fold_left (fun h' f => extern f h') declared_regs
        (if (nrn_nobanner_ h =? 0) && (nrnmpi_myid h <? 1)
         then mkHost (nrn_nobanner_ h) (nrnmpi_myid h)
                     (stderr h ++ banner_text)%string (mem h)
         else h).
Proof. intros Ext extern h. apply modl_reg_host. Qed.

(** When the external functions write nothing to [stderr], the content of
    [stderr] on return is its content on entry, followed by the banner text
    if the gate is open and by nothing otherwise. *)
Theorem modl_reg_stderr_content :
  forall (Ext : Type) (extern : reg_fn -> Host Ext -> Host Ext),
    (forall f h, stderr (extern f h) = stderr h) ->
    forall h : Host Ext,
      stderr (host_of (modl_reg extern h)) =
        (stderr h ++ diag_output (trace (modl_reg extern h)))%string.
Proof.
  intros Ext extern Hquiet h. unfold diag_output.
  rewrite modl_reg_host, modl_reg_writes.
  set (h1 := if banner_gate h then printed banner_text h else h).
  rewrite (run_regs_invariant extern (fun x => stderr x = stderr h1)
             (fun f x Hx => eq_trans (Hquiet f x) Hx) declared_regs h1 eq_refl).
  subst h1. destruct (banner_gate h); cbn [stderr printed].
  - now rewrite text_of_banner_writes.
  - cbn [text_of fold_right]. now rewrite append_empty_r.
Qed.

Lemma modl_reg_stderr_content_witness :
  (forall f h, stderr (quiet_extern f h) = stderr h) /\
  stderr (host_of (modl_reg quiet_extern (mkHost 0 0 "boot: " 0%nat))) =
    ("boot: " ++
     diag_output (trace (modl_reg quiet_extern (mkHost 0 0 "boot: " 0%nat))))%string.
Proof.
  split; [intros f h; reflexivity |].
  apply (modl_reg_stderr_content nat quiet_extern (fun f h => eq_refl)
           (mkHost 0 0 "boot: " 0%nat)).
Defined.

(** A property of the host state that every external function keeps, and
    that appending text to [stderr] keeps, holds on return if it held on
    entry. *)
Theorem modl_reg_keeps_invariant :
  forall (Ext : Type) (extern : reg_fn -> Host Ext -> Host Ext)
         (P : Host Ext -> Prop),
    (forall f h, P h -> P (extern f h)) ->
    (forall s h, P h ->
       P (mkHost (nrn_nobanner_ h) (nrnmpi_myid h) (stderr h ++ s)%string (mem h))) ->
    forall h : Host Ext, P h -> P (host_of (modl_reg extern h)).
Proof.
  intros Ext extern P Hext Hout h Hh. rewrite modl_reg_host.
  apply run_regs_invariant; [exact Hext |].
  destruct (banner_gate h); [apply (Hout banner_text h Hh) | exact Hh].
Qed.

Lemma modl_reg_keeps_invariant_witness :
  (forall f h, nrn_nobanner_ h = 1 -> nrn_nobanner_ (counting_extern f h) = 1) /\
  (forall s (h : Host nat), nrn_nobanner_ h = 1 ->
     nrn_nobanner_ (mkHost (nrn_nobanner_ h) (nrnmpi_myid h)
                           (stderr h ++ s)%string (mem h)) = 1) /\
  nrn_nobanner_ (host0 1 0) = 1 /\
  nrn_nobanner_ (host_of (modl_reg counting_extern (host0 1 0))) = 1.
Proof.
  split; [intros f h H; exact H |].
  split; [intros s h H; exact H |].
  split; [reflexivity |].
  apply (modl_reg_keeps_invariant nat counting_extern
           (fun h => nrn_nobanner_ h = 1)
           (fun f h H => H) (fun s h H => H)
           (host0 1 0) eq_refl).
Defined.

(** The banner announces what is registered: in every run that prints it,
    the writes are the header, then for each registration call of the run,
    in the order of the calls, a space and the file name of the function
    called, then a newline. *)
Theorem banner_lists_registered_files :
  forall (Ext : Type) (extern : reg_fn -> Host Ext -> Host Ext) (h : Host Ext),
    nrn_nobanner_ h = 0 -> nrnmpi_myid h < 1 ->
    writes_of (trace (modl_reg extern h)) =
      header_line
        :: map (fun f => (" " ++ mod_file_of f)%string)
               (calls_of (trace (modl_reg extern h)))
        ++ [nl].
Proof.
  intros Ext extern h Hnb Hid.
  assert (G : banner_gate h = true) by (apply banner_gate_true; now split).
  rewrite modl_reg_writes, modl_reg_calls, G. reflexivity.
Qed.

Lemma banner_lists_registered_files_witness :
  nrn_nobanner_ (host0 0 0) = 0 /\
  nrnmpi_myid (host0 0 0) < 1 /\
  writes_of (trace (modl_reg counting_extern (host0 0 0))) =
    header_line
      :: map (fun f => (" " ++ mod_file_of f)%string)
             (calls_of (trace (modl_reg counting_extern (host0 0 0))))
      ++ [nl].
Proof.
  split; [reflexivity |]. split; [reflexivity |].
  apply (banner_lists_registered_files nat counting_extern (host0 0 0));
    reflexivity.
Defined.

(** No format that [modl_reg] hands to [fprintf] holds a [%]: in every run
    each write is free of conversions, so the call without further arguments
    writes the format as it is. *)
Theorem modl_reg_formats_plain :
  forall (Ext : Type) (extern : reg_fn -> Host Ext -> Host Ext) (h : Host Ext),
    forallb (fun fmt => negb (has_percent fmt))
            (writes_of (trace (modl_reg extern h))) = true.
Proof.
  intros Ext extern h. rewrite modl_reg_writes.
  destruct (banner_gate h); [exact banner_formats_plain | reflexivity].
Qed.

(** In every run, banner or not, [modl_reg] writes nothing to [stderr] once
    it has made its first registration call. *)
Theorem modl_reg_never_writes_after_call :
  forall (Ext : Type) (extern : reg_fn -> Host Ext -> Host Ext) (h : Host Ext),
    writes_first (trace (modl_reg extern h)) = true.
Proof.
  intros Ext extern h. rewrite modl_reg_trace.
  destruct (banner_gate h); reflexivity.
Qed.

(** One invocation makes 19 calls and either 21 writes, one [fprintf] per
    piece of the banner, or none: 40 events or 19. *)
Theorem modl_reg_event_count :
  forall (Ext : Type) (extern : reg_fn -> Host Ext -> Host Ext) (h : Host Ext),
    List.length (writes_of (trace (modl_reg extern h))) =
      (if (nrn_nobanner_ h =? 0) && (nrnmpi_myid h <? 1) then 21%nat else 0%nat) /\
    List.length (trace (modl_reg extern h)) =
      (List.length (writes_of (trace (modl_reg extern h))) + 19)%nat.
Proof.
  intros Ext extern h. rewrite modl_reg_writes, modl_reg_trace.
  fold (banner_gate h). destruct (banner_gate h); split; reflexivity.
Qed.

(** When the external functions leave the two globals alone, [n]
    invocations in a row print the banner [n] times if the gate is open on
    entry, and never if it is closed. *)
Theorem modl_reg_times_banners :
  forall (Ext : Type) (extern : reg_fn -> Host Ext -> Host Ext),
    (forall f h,
        nrn_nobanner_ (extern f h) = nrn_nobanner_ h /\
        nrnmpi_myid (extern f h) = nrnmpi_myid h) ->
    forall (n : nat) (h : Host Ext),
      writes_of (trace (modl_reg_times extern n h)) =
        if (nrn_nobanner_ h =? 0) && (nrnmpi_myid h <? 1)
        then List.concat (repeat banner_writes n)
        else [].
Proof.
  intros Ext extern Hframe n.
  induction n as [| n IH]; intros h; fold (banner_gate h).
  - destruct (banner_gate h); reflexivity.
  - rewrite modl_reg_times_succ, writes_of_app, modl_reg_writes, IH.
    fold (banner_gate (host_of (modl_reg extern h))).
    rewrite (modl_reg_gate_stable extern Hframe h).
    destruct (banner_gate h); reflexivity.
Qed.

Lemma modl_reg_times_banners_witness :
  (forall f h,
      nrn_nobanner_ (counting_extern f h) = nrn_nobanner_ h /\
      nrnmpi_myid (counting_extern f h) = nrnmpi_myid h) /\
  writes_of (trace (modl_reg_times counting_extern 3 (host0 0 0))) =
    List.concat (repeat banner_writes 3).
Proof.
  split; [intros f h; split; reflexivity |].
  apply (modl_reg_times_banners nat counting_extern
           (fun f h => conj eq_refl eq_refl) 3%nat (host0 0 0)).
Defined.

End ModFunc.
